(** * LinkDetect: the URL feature extractor and the /predict pipeline of app.py

    A shallow embedding of [extract_features_from_url] and [predict], and the
    properties of the specification settled against it. *)

From Stdlib Require Import Ascii String NArith ZArith Bool Lia List.
Import ListNotations.

Set Implicit Arguments.
Local Open Scope Z_scope.

(** ** Python strings

    A Python [str] is a sequence of Unicode code points.  Literals of the
    source are written [py "..."]. *)

Definition codepoint := N.
Definition pystr := list codepoint.

Definition py (s : string) : pystr := map N_of_ascii (list_ascii_of_string s).
Arguments py s%_string.

(** A one-character literal of the source. *)
Definition ch (c : ascii) : codepoint := N_of_ascii c.
Arguments ch c%_char.

Definition len (A : Type) (l : list A) : Z := Z.of_nat (List.length l).

Fixpoint str_eqb (a b : pystr) : bool :=
  match a, b with
  | [], [] => true
  | x :: a', y :: b' => N.eqb x y && str_eqb a' b'
  | _, _ => false
  end.

(** [s.count(c)] for a one-character [c]. *)
Fixpoint count (c : codepoint) (s : pystr) : Z :=
  match s with
  | [] => 0
  | x :: s' => (if N.eqb x c then 1 else 0) + count c s'
  end.

(** [sum(p(c) for c in s)]: the number of characters that satisfy [p]. *)
Fixpoint count_if (p : codepoint -> bool) (s : pystr) : Z :=
  match s with
  | [] => 0
  | x :: s' => (if p x then 1 else 0) + count_if p s'
  end.

Fixpoint startswith (prefix s : pystr) : bool :=
  match prefix, s with
  | [], _ => true
  | _ :: _, [] => false
  | x :: p', y :: s' => N.eqb x y && startswith p' s'
  end.

(** [needle in s]: substring test. *)
Fixpoint contains (needle s : pystr) : bool :=
  startswith needle s ||
  match s with
  | [] => false
  | _ :: s' => contains needle s'
  end.

(** [s.split(sep)] for a one-character separator: the pieces between the
    separators, so one more piece than there are separators. *)
Fixpoint split (sep : codepoint) (s : pystr) : list pystr :=
  match s with
  | [] => [[]]
  | x :: s' =>
      if N.eqb x sep then [] :: split sep s'
      else match split sep s' with
           | piece :: pieces => (x :: piece) :: pieces
           | [] => [[x]]
           end
  end.

(** ** Exceptions and results *)

Inductive exn : Type :=
| TypeError
| AttributeError
| IndexError
| Raised (msg : pystr).   (* an exception of a collaborator, with its message *)

Definition result (A : Type) : Type := (exn + A)%type.

Definition rbind (A B : Type) (m : result A) (k : A -> result B) : result B :=
  match m with
  | inl e => inl e
  | inr a => k a
  end.

(** [l[i]]: raises IndexError out of range. *)
Definition index (A : Type) (l : list A) (i : nat) : result A :=
  match nth_error l i with
  | Some a => inr a
  | None => inl IndexError
  end.

(** ** The regular expressions of the source

    The two patterns of app.py use literals, the class \d and the postfix +
    on a single character; [match_here] is a backtracking matcher for that
    fragment. *)

Inductive atom : Type :=
| Lit (c : codepoint)
| Digit.

Inductive item : Type :=
| One (a : atom)
| Plus (a : atom).

Definition regex := list item.

(** The Unicode character database, consulted for the code points outside
    ASCII: category Nd (the class \d of [re]), [str.isdigit], [str.isupper],
    and the lowercase mapping of a character, which may be several characters
    and may depend on the characters before and after it (final sigma). *)
Class Unicode : Type := {
  ucd_decimal : codepoint -> bool;
  ucd_isdigit : codepoint -> bool;
  ucd_isupper : codepoint -> bool;
  ucd_lower : pystr -> codepoint -> pystr -> pystr
}.

Section Extractor.

Context {U : Unicode}.

Definition is_ascii (c : codepoint) : bool := N.ltb c 128%N.

Definition ascii_digit (c : codepoint) : bool := N.leb 48%N c && N.leb c 57%N.

Definition ascii_upper (c : codepoint) : bool := N.leb 65%N c && N.leb c 90%N.

Definition is_decimal (c : codepoint) : bool :=
  if is_ascii c then ascii_digit c else ucd_decimal c.

Definition isdigit (c : codepoint) : bool :=
  if is_ascii c then ascii_digit c else ucd_isdigit c.

Definition isupper (c : codepoint) : bool :=
  if is_ascii c then ascii_upper c else ucd_isupper c.

Definition ascii_lower (c : codepoint) : codepoint :=
  if ascii_upper c then (c + 32)%N else c.

Fixpoint lower_from (before s : pystr) : pystr :=
  match s with
  | [] => []
  | c :: rest =>
      (if is_ascii c then [ascii_lower c] else ucd_lower before c rest)
        ++ lower_from (before ++ [c]) rest
  end.

(** [s.lower()] *)
Definition lower (s : pystr) : pystr := lower_from [] s.

Definition atom_ok (a : atom) (c : codepoint) : bool :=
  match a with
  | Lit d => N.eqb c d
  | Digit => is_decimal c
  end.

(** After the first repetition of [a+]: take one more character, or leave
    the rest to the continuation [k]. *)
Fixpoint plus_loop (a : atom) (k : pystr -> bool) (s : pystr) : bool :=
  match s with
  | c :: s' => (atom_ok a c && plus_loop a k s') || k s
  | [] => k s
  end.

Fixpoint match_here (r : regex) (s : pystr) : bool :=
  match r with
  | [] => true
  | One a :: r' =>
      match s with
      | c :: s' => atom_ok a c && match_here r' s'
      | [] => false
      end
  | Plus a :: r' =>
      match s with
      | c :: s' => atom_ok a c && plus_loop a (match_here r') s'
      | [] => false
      end
  end.

(** [re.match(r, s)]: a match at position 0; the result is used as a truth
    value only. *)
Definition re_match (r : regex) (s : pystr) : bool := match_here r s.

(** [re.search(r, s)]: a match at any position. *)
Fixpoint re_search (r : regex) (s : pystr) : bool :=
  match_here r s ||
  match s with
  | [] => false
  | _ :: s' => re_search r s'
  end.

(** r'\d+\.\d+\.\d+\.\d+' *)
Definition ip_pattern : regex :=
  [Plus Digit; One (Lit (ch ".")); Plus Digit; One (Lit (ch "."));
   Plus Digit; One (Lit (ch ".")); Plus Digit].

(** r":\d+" *)
Definition port_pattern : regex := [One (Lit (ch ":")); Plus Digit].

(** ** extract_features_from_url *)

Definition special_chars : list codepoint :=
  [ch "@"; ch "?"; ch "="; ch "&"; ch "-"; ch "_"].

Definition encoding_tags : list pystr :=
  [py "base64"; py "javascript:"; py "data:"].

Definition suspicious_words : list pystr :=
  [py "login"; py "verify"; py "secure"; py "account"; py "update";
   py "confirm"; py "bank"; py "reset"; py "free"; py "click"; py "offer";
   py "win"; py "paypal"; py "ebay"].

Definition flag (b : bool) : Z := if b then 1 else 0.

(** [any(tag in s for tag in tags)] *)
Definition any_in (tags : list pystr) (s : pystr) : bool :=
  existsb (fun tag => contains tag s) tags.

Definition sum_counts (cs : list codepoint) (s : pystr) : Z :=
  fold_right Z.add 0 (map (fun c => count c s) cs).

(** The body of [extract_features_from_url] on a [str]; the two subscripts
    are the operations that can raise. *)
Definition extract_str (url : pystr) : result (list Z) :=
  let f0 := len url in
  let f1 := count (ch ".") url in
  let f2 := sum_counts special_chars url in
  let f3 := flag (re_match ip_pattern url) in
  let f4 := flag (contains (py "https") (lower url)) in
  let f5 := len (split (ch "/") url) in
  let f6 := flag (any_in encoding_tags (lower url)) in
  let f7 := count_if isdigit url in
  let f8 := count_if isupper url in
  rbind (if Z.ltb 2 (len (split (ch "/") url))
         then rbind (index (split (ch "/") url) 2) (fun d => inr (len d))
         else inr 0) (fun f9 =>
  let f10 := if Z.ltb 2 (len (split (ch ".") url))
             then len (split (ch ".") url) - 2 else 0 in
  let f11 := flag (re_search port_pattern url) in
  rbind (if contains (py "?") url
         then rbind (index (split (ch "?") url) 1) (fun q => inr (len q))
         else inr 0) (fun f12 =>
  let f13 := flag (any_in suspicious_words (lower url)) in
  inr [f0; f1; f2; f3; f4; f5; f6; f7; f8; f9; f10; f11; f12; f13])).

(** Feature [i] of the vector of [url], when there is one. *)
Definition feature (i : nat) (url : pystr) : option Z :=
  match extract_str url with
  | inr v => nth_error v i
  | inl _ => None
  end.

(** Following the specification's words for feature 3: the string begins
    with four non-empty runs of digits separated by dots. *)
Definition digit_run (d : pystr) : Prop :=
  d <> [] /\ forallb is_decimal d = true.

Definition begins_with_dotted_quad (s : pystr) : Prop :=
  exists d1 d2 d3 d4 rest,
    s = d1 ++ ch "." :: d2 ++ ch "." :: d3 ++ ch "." :: d4 ++ rest
    /\ digit_run d1 /\ digit_run d2 /\ digit_run d3 /\ digit_run d4.

(** The strings a pattern matches in full. *)
Fixpoint denotes (r : regex) (s : pystr) : Prop :=
  match r with
  | [] => s = []
  | One a :: r' =>
      exists c s', s = c :: s' /\ atom_ok a c = true /\ denotes r' s'
  | Plus a :: r' =>
      exists d s', s = d ++ s' /\ d <> []
                   /\ forallb (atom_ok a) d = true /\ denotes r' s'
  end.

End Extractor.

(** Following the specification's words for feature 12: the substring after
    the first [sep], when there is one. *)
Fixpoint after_first (sep : codepoint) (s : pystr) : option pystr :=
  match s with
  | [] => None
  | x :: s' => if N.eqb x sep then Some s' else after_first sep s'
  end.

Definition query_length_spec (url : pystr) : Z :=
  match after_first (ch "?") url with
  | Some q => len q
  | None => 0
  end.

(** ** Python values

    The values that reach the handler: what the JSON body parses to, and what
    the label decoder returns.  A float is observed through its truth value
    only. *)

#[warnings="-register-all"] Inductive pyobj : Type :=
| PyNone
| PyBool (b : bool)
| PyInt (n : Z)
| PyFloat (nonzero : bool)
| PyStr (s : pystr)
| PyList (items : list pyobj)
| PyDict (fields : list (pystr * pyobj)).

(** The truth value of [v], as in [if not v]. *)
Definition truthy (v : pyobj) : bool :=
  match v with
  | PyNone => false
  | PyBool b => b
  | PyInt n => negb (Z.eqb n 0)
  | PyFloat nonzero => nonzero
  | PyStr s => match s with [] => false | _ :: _ => true end
  | PyList items => match items with [] => false | _ :: _ => true end
  | PyDict fields => match fields with [] => false | _ :: _ => true end
  end.

(** A dict is the list of its items; the first item of a key counts. *)
Fixpoint lookup (key : pystr) (fields : list (pystr * pyobj)) : option pyobj :=
  match fields with
  | [] => None
  | (k, v) :: rest => if str_eqb k key then Some v else lookup key rest
  end.

(** [data.get(key)]: None for a missing key; only a dict has [get]. *)
Definition get (data : pyobj) (key : pystr) : result pyobj :=
  match data with
  | PyDict fields =>
      inr (match lookup key fields with Some v => v | None => PyNone end)
  | _ => inl AttributeError
  end.

(** The collaborators loaded from model.pkl, scaler.pkl and
    label_encoder.pkl.  Each call is made on one row and its first result is
    taken; a call may raise. *)
Class Artifacts : Type := {
  Scaled : Type;
  Encoded : Type;
  scaler_transform : list Z -> result Scaled;
  model_predict : Scaled -> result Encoded;
  label_encoder_inverse_transform : Encoded -> result pyobj
}.

(** ** The world of a request *)

Inductive call : Type :=
| CallExtract
| CallScaler
| CallModel
| CallLabelEncoder.

(** A row handed to [writer.writerow]. *)
Definition row := list pyobj.

(** [trace] records the calls made so far, [history] the rows of
    classified_history.csv, [clock] what [datetime.now().isoformat()]
    returns.  [sink_fault r = Some e] when opening the file or writing the
    row [r] raises [e]; nothing is written then. *)
Record World : Type := {
  trace : list call;
  history : list row;
  clock : pystr;
  sink_fault : row -> option exn
}.

Definition log (c : call) (w : World) : World :=
  {| trace := trace w ++ [c]; history := history w;
     clock := clock w; sink_fault := sink_fault w |}.

(** The world after the four calls of a classification that went through. *)
Definition after_calls (w : World) : World :=
  log CallLabelEncoder (log CallModel (log CallScaler (log CallExtract w))).

Definition write_row (r : row) (w : World) : World :=
  {| trace := trace w; history := history w ++ [r];
     clock := clock w; sink_fault := sink_fault w |}.

(** Computations that may raise and that act on the world. *)
Definition M (A : Type) : Type := World -> result A * World.

Definition ret (A : Type) (a : A) : M A := fun w => (inr a, w).

Definition raise (A : Type) (e : exn) : M A := fun w => (inl e, w).

Definition bind (A B : Type) (m : M A) (k : A -> M B) : M B :=
  fun w =>
    match m w with
    | (inl e, w') => (inl e, w')
    | (inr a, w') => k a w'
    end.

Definition lift (A : Type) (r : result A) : M A := fun w => (r, w).

(** [try: body / except Exception as e: handler e] *)
Definition try_except (A : Type) (body : M A) (handler : exn -> M A) : M A :=
  fun w =>
    match body w with
    | (inl e, w') => handler e w'
    | (inr a, w') => (inr a, w')
    end.

(** A call of a collaborator, recorded in the trace. *)
Definition invoke (A : Type) (c : call) (r : result A) : M A :=
  fun w => (r, log c w).

Definition now : M pystr := fun w => (inr (clock w), w).

(** [with open("classified_history.csv", mode="a", ...) as file:
       csv.writer(file).writerow(r)] *)
Definition append_history (r : row) : M unit :=
  fun w =>
    match sink_fault w r with
    | Some e => (inl e, w)
    | None => (inr tt, write_row r w)
    end.

Declare Scope monad_scope.
Delimit Scope monad_scope with monad.
Notation "x <- m ;; k" := (bind m (fun x => k))
  (at level 61, m at next level, right associativity) : monad_scope.
Notation "m ;; k" := (bind m (fun _ => k))
  (at level 61, right associativity) : monad_scope.

Inductive response : Type :=
| Ok200 (prediction : pyobj)   (* {'prediction': prediction_label} *)
| Err400                       (* {'error': 'No URL provided'}, 400 *)
| Err500 (e : exn).            (* {'error': str(e)}, 500 *)

Section Pipeline.

Context {U : Unicode} {K : Artifacts}.

(** [extract_features_from_url] on any value: on a value that is not a
    [str], [len] raises for None and the numbers, [count] is missing on a
    dict, and [re.match] rejects a list. *)
Definition extract_features_from_url (url : pyobj) : result (list Z) :=
  match url with
  | PyStr s => extract_str s
  | PyDict _ => inl AttributeError
  | _ => inl TypeError
  end.

(** [v.lower()] *)
Definition py_lower (v : pyobj) : result pystr :=
  match v with
  | PyStr s => inr (lower s)
  | _ => inl AttributeError
  end.

Definition override_tags : list pystr :=
  [py "vulnweb"; py "acunetix"; py "testphp"; py "demo"].

Definition dangerous_labels : list pystr :=
  [py "phishing"; py "malicious"; py "unsafe"].

(** [x in labels] for a list of strings *)
Definition member (x : pystr) (labels : list pystr) : bool :=
  existsb (str_eqb x) labels.

Local Open Scope monad_scope.

(** The [try] block of [predict] up to the override: extraction, scaling,
    prediction, decoding, and the label forced to "phishing" for the marked
    URLs. *)
Definition decide_label (url : pyobj) : M pyobj :=
  features <- invoke CallExtract (extract_features_from_url url) ;;
  scaled <- invoke CallScaler (scaler_transform features) ;;
  prediction_encoded <- invoke CallModel (model_predict scaled) ;;
  decoded <- invoke CallLabelEncoder
               (label_encoder_inverse_transform prediction_encoded) ;;
  lowered_url <- lift (py_lower url) ;;
  ret (if any_in override_tags lowered_url then PyStr (py "phishing")
       else decoded).

(** The rest of the [try] block: the row written for a dangerous label. *)
Definition log_detection (url prediction_label : pyobj) : M unit :=
  lowered_label <- lift (py_lower prediction_label) ;;
  if member lowered_label dangerous_labels
  then (stamp <- now ;;
        append_history [PyStr stamp; url; prediction_label])
  else ret tt.

(** The whole [try] block. *)
Definition try_block (url : pyobj) : M response :=
  prediction_label <- decide_label url ;;
  log_detection url prediction_label ;;
  ret (Ok200 prediction_label).

(** The handler of POST /predict, from the parsed JSON body on.  An
    exception of [data.get] is raised outside the [try] block and leaves
    the handler. *)
Definition predict (data : pyobj) : M response :=
  url <- lift (get data (py "url")) ;;
  if negb (truthy url) then ret Err400
  else try_except (try_block url) (fun e => ret (Err500 e)).

End Pipeline.

(** ** The extractor as the program it is

    The body of [extract_features_from_url] is a sequence of statements on
    its local list [features]; like any code of the process it runs in the
    world, which it could read or change.  [Local] are such statements: they
    act on the local list and on the world, and may raise. *)

Definition Local (A : Type) : Type := list Z -> M (A * list Z).

Definition lbind (A B : Type) (m : Local A) (k : A -> Local B) : Local B :=
  fun features =>
    bind (m features) (fun r => k (fst r) (snd r)).

(** [features.append(x)] *)
Definition append (x : Z) : Local unit :=
  fun features => ret (tt, features ++ [x]).

(** The value of an expression that may raise. *)
Definition eval (A : Type) (r : result A) : Local A :=
  fun features => bind (lift r) (fun a => ret (a, features)).

Declare Scope local_scope.
Delimit Scope local_scope with local.
Notation "x <- m ;; k" := (lbind m (fun x => k))
  (at level 61, m at next level, right associativity) : local_scope.
Notation "m ;; k" := (lbind m (fun _ => k))
  (at level 61, right associativity) : local_scope.

Section ExtractorProgram.

Context {U : Unicode}.

(** Lines 19 to 33 of app.py, statement by statement. *)
Definition extract_body (url : pystr) : Local unit :=
  (append (len url) ;;
   append (count (ch ".") url) ;;
   append (sum_counts special_chars url) ;;
   append (flag (re_match ip_pattern url)) ;;
   append (flag (contains (py "https") (lower url))) ;;
   append (len (split (ch "/") url)) ;;
   append (flag (any_in encoding_tags (lower url))) ;;
   append (count_if isdigit url) ;;
   append (count_if isupper url) ;;
   domain <- eval (if Z.ltb 2 (len (split (ch "/") url))
                   then rbind (index (split (ch "/") url) 2)
                          (fun d => inr (len d))
                   else inr 0) ;;
   append domain ;;
   append (if Z.ltb 2 (len (split (ch ".") url))
           then len (split (ch ".") url) - 2 else 0) ;;
   append (flag (re_search port_pattern url)) ;;
   query <- eval (if contains (py "?") url
                  then rbind (index (split (ch "?") url) 1)
                         (fun q => inr (len q))
                  else inr 0) ;;
   append query ;;
   append (flag (any_in suspicious_words (lower url))))%local.

(** A call [extract_features_from_url(url)]: [features = []], the body,
    [return np.array(features)].  On a value that is not a [str] the body
    raises as in [extract_features_from_url]. *)
Definition extract_call (url : pyobj) : M (list Z) :=
  match url with
  | PyStr s => bind (extract_body s []) (fun r => ret (snd r))
  | PyDict _ => raise (list Z) AttributeError
  | _ => raise (list Z) TypeError
  end.

(** Two calls of the extractor, one after the other: the second runs in
    the world the first leaves. *)
Definition extract_twice (url : pyobj) : M (list Z * list Z) :=
  (first <- extract_call url ;;
   second <- extract_call url ;;
   ret (first, second))%monad.

End ExtractorProgram.

(** ** Test doubles *)

(** A database that knows no character outside ASCII. *)
Definition ascii_only : Unicode :=
  {| ucd_decimal := fun _ => false;
     ucd_isdigit := fun _ => false;
     ucd_isupper := fun _ => false;
     ucd_lower := fun _ c _ => [c] |}.

(** Collaborators that answer [label] for every row. *)
Definition constant_artifacts (label : pyobj) : Artifacts :=
  {| Scaled := list Z;
     Encoded := Z;
     scaler_transform := fun features => inr features;
     model_predict := fun _ => inr 0;
     label_encoder_inverse_transform := fun _ => inr label |}.

Definition benign_model : Artifacts :=
  constant_artifacts (PyStr (py "benign")).

Definition malicious_model : Artifacts :=
  constant_artifacts (PyStr (py "malicious")).

(** A request body {"url": url}. *)
Definition body (url : pystr) : pyobj := PyDict [(py "url", PyStr url)].

Definition fresh_world : World :=
  {| trace := [];
     history := [];
     clock := py "2024-05-01T12:00:00";
     sink_fault := fun _ => None |}.

(** A world where the history file cannot be opened. *)
Definition read_only_world : World :=
  {| trace := [];
     history := [];
     clock := py "2024-05-01T12:00:00";
     sink_fault := fun _ => Some (Raised (py "Permission denied")) |}.

(** Collaborators whose scaler, model or decoder raises. *)
Definition unfitted_scaler : Artifacts :=
  {| Scaled := list Z;
     Encoded := Z;
     scaler_transform := fun _ => inl (Raised (py "scaler is not fitted"));
     model_predict := fun _ => inr 0;
     label_encoder_inverse_transform := fun _ => inr (PyStr (py "benign")) |}.

(** Collaborators fitted on numeric classes: the decoder returns a number. *)
Definition numeric_model : Artifacts := constant_artifacts (PyInt 1).

(** ** Words of the statements *)

(** One of the six characters counted by feature 2. *)
Definition is_special (c : codepoint) : bool :=
  existsb (N.eqb c) special_chars.

(** The calls of a classification, in the order of the source. *)
Definition call_order : list call :=
  [CallExtract; CallScaler; CallModel; CallLabelEncoder].

(** No [sep] in [s]. *)
Definition free_of (sep : codepoint) (s : pystr) : Prop := count sep s = 0.

(** [rest] is empty or begins with [sep]: where a piece of a split ends. *)
Definition ends_piece (sep : codepoint) (rest : pystr) : Prop :=
  rest = [] \/ exists r, rest = sep :: r.

(** * Properties *)

(** ** Strings *)

Lemma split_not_nil sep s : split sep s <> [].
Proof.
  destruct s as [|x s]; simpl; [discriminate|].
  destruct (N.eqb x sep); [discriminate|].
  destruct (split sep s); discriminate.
Qed.

Lemma split_length_pos sep s : 1 <= len (split sep s).
Proof.
  unfold len. destruct (split sep s) eqn:E.
  - now apply split_not_nil in E.
  - simpl. lia.
Qed.

Lemma split_cons_length sep x s :
  (length (split sep s) <= length (split sep (x :: s)))%nat.
Proof.
  simpl. destruct (N.eqb x sep); simpl; [lia|].
  destruct (split sep s); simpl; lia.
Qed.

Lemma contains_char_split c s :
  contains [c] s = true -> (2 <= length (split c s))%nat.
Proof.
  induction s as [|x s IH]; simpl; [discriminate|].
  rewrite andb_true_r. intros H. apply orb_true_iff in H as [H | H].
  - rewrite N.eqb_sym, H. simpl.
    pose proof (split_length_pos c s) as P. unfold len in P. lia.
  - specialize (IH H). pose proof (split_cons_length c x s) as P.
    simpl in P. lia.
Qed.

Lemma count_nonneg c s : 0 <= count c s.
Proof.
  induction s as [|x s IH]; simpl; [lia|]. destruct (N.eqb x c); lia.
Qed.

Lemma split_no_sep sep s : count sep s = 0 -> split sep s = [s].
Proof.
  induction s as [|x s IH]; simpl; [reflexivity|].
  pose proof (count_nonneg sep s). destruct (N.eqb x sep); [lia|].
  intros H0. rewrite IH by lia. reflexivity.
Qed.

Lemma contains_char_after_first sep s :
  contains [sep] s = match after_first sep s with
                     | Some _ => true
                     | None => false
                     end.
Proof.
  induction s as [|x s IH]; simpl; [reflexivity|].
  rewrite andb_true_r, (N.eqb_sym sep x).
  destruct (N.eqb x sep); [reflexivity|exact IH].
Qed.

(** The second piece of a split is the first piece of what follows the
    first separator. *)
Lemma split_after_first sep s q :
  after_first sep s = Some q ->
  nth 1 (split sep s) [] = hd [] (split sep q).
Proof.
  induction s as [|x s IH]; simpl; [discriminate|].
  destruct (N.eqb x sep).
  - intros [= ->]. now destruct (split sep q).
  - intros H. specialize (IH H). destruct (split sep s) eqn:E.
    + now apply split_not_nil in E.
    + exact IH.
Qed.

Lemma after_first_count sep s q :
  after_first sep s = Some q -> count sep s = 1 + count sep q.
Proof.
  induction s as [|x s IH]; simpl; [discriminate|].
  destruct (N.eqb x sep).
  - now intros [= ->].
  - intros H. rewrite (IH H). simpl. lia.
Qed.

Lemma index_nth (A : Type) (l : list A) (i : nat) (d : A) :
  (i < length l)%nat -> index l i = inr (nth i l d).
Proof.
  intros H. unfold index. now rewrite (nth_error_nth' l d H).
Qed.

Section ExtractorFacts.

Context {U : Unicode}.

(** The vector of [extract_str], with the two subscripts resolved: they are
    taken only where they are in range. *)
Lemma extract_str_eq url :
  extract_str url =
  inr [len url;
       count (ch ".") url;
       sum_counts special_chars url;
       flag (re_match ip_pattern url);
       flag (contains (py "https") (lower url));
       len (split (ch "/") url);
       flag (any_in encoding_tags (lower url));
       count_if isdigit url;
       count_if isupper url;
       (if Z.ltb 2 (len (split (ch "/") url))
        then len (nth 2 (split (ch "/") url) []) else 0);
       (if Z.ltb 2 (len (split (ch ".") url))
        then len (split (ch ".") url) - 2 else 0);
       flag (re_search port_pattern url);
       (if contains (py "?") url
        then len (nth 1 (split (ch "?") url) []) else 0);
       flag (any_in suspicious_words (lower url))].
Proof.
  unfold extract_str.
  assert (Hq : contains (py "?") url = true ->
               index (split (ch "?") url) 1
               = inr (nth 1 (split (ch "?") url) [])).
  { intros H. apply contains_char_split in H. now apply index_nth. }
  assert (Hd : Z.ltb 2 (len (split (ch "/") url)) = true ->
               index (split (ch "/") url) 2
               = inr (nth 2 (split (ch "/") url) [])).
  { intros H. apply Z.ltb_lt in H. apply index_nth. unfold len in H. lia. }
  destruct (Z.ltb 2 (len (split (ch "/") url)));
    destruct (contains (py "?") url);
    rewrite ?Hd, ?Hq by reflexivity;
    cbv beta iota delta [rbind]; reflexivity.
Qed.

Lemma feature_ip url :
  feature 3 url = Some (flag (re_match ip_pattern url)).
Proof. unfold feature. now rewrite extract_str_eq. Qed.

Lemma feature_segments url :
  feature 5 url = Some (len (split (ch "/") url)).
Proof. unfold feature. now rewrite extract_str_eq. Qed.

Lemma feature_query url :
  feature 12 url =
  Some (if contains (py "?") url
        then len (nth 1 (split (ch "?") url) []) else 0).
Proof. unfold feature. now rewrite extract_str_eq. Qed.

Lemma feature_suspicious url :
  feature 13 url = Some (flag (any_in suspicious_words (lower url))).
Proof. unfold feature. now rewrite extract_str_eq. Qed.

(** ** The matcher against the strings a pattern denotes *)

Lemma plus_loop_spec a k s :
  plus_loop a k s = true <->
  exists d s', s = d ++ s' /\ forallb (atom_ok a) d = true /\ k s' = true.
Proof.
  induction s as [|c s IH]; simpl.
  - split.
    + intros H. now exists [], [].
    + intros (d & s' & E & _ & H). symmetry in E.
      apply app_eq_nil in E as [_ ->]. exact H.
  - rewrite orb_true_iff, andb_true_iff, IH. split.
    + intros [[Hc (d & s' & -> & Hd & Hk)] | Hk].
      * exists (c :: d), s'. simpl. now rewrite Hc, Hd.
      * now exists [], (c :: s).
    + intros (d & s' & E & Hd & Hk). destruct d as [|c' d]; simpl in E.
      * right. now subst s'.
      * injection E as <- ->. simpl in Hd. apply andb_true_iff in Hd as [Hc Hd].
        left. split; [exact Hc|]. now exists d, s'.
Qed.

Lemma match_here_spec r :
  forall s, match_here r s = true <->
            exists p rest, s = p ++ rest /\ denotes r p.
Proof.
  induction r as [|[a|a] r IH]; intros s; simpl.
  - split; [intros _; now exists [], s|reflexivity].
  - destruct s as [|c s].
    + split; [discriminate|].
      intros (p & rest & E & c & s' & -> & _). discriminate.
    + rewrite andb_true_iff, IH. split.
      * intros [Hc (p & rest & -> & Hp)].
        exists (c :: p), rest. split; [reflexivity|]. now exists c, p.
      * intros (p & rest & E & c' & s' & -> & Hc & Hp).
        injection E as -> ->. split; [exact Hc|]. now exists s', rest.
  - destruct s as [|c s].
    + split; [discriminate|].
      intros (p & rest & E & d & s' & -> & Hne & _).
      destruct d; [now elim Hne|discriminate].
    + rewrite andb_true_iff, plus_loop_spec. split.
      * intros [Hc (d & s' & -> & Hd & Hk)].
        apply IH in Hk as (p & rest & -> & Hp).
        exists ((c :: d) ++ p), rest. split.
        { simpl. now rewrite app_assoc. }
        exists (c :: d), p. repeat split; try discriminate; try assumption.
        simpl. now rewrite Hc, Hd.
      * intros (p & rest & E & d & s' & -> & Hne & Hd & Hp).
        destruct d as [|c' d]; [now elim Hne|].
        simpl in E. injection E as -> ->.
        simpl in Hd. apply andb_true_iff in Hd as [Hc Hd].
        split; [exact Hc|]. exists d, (s' ++ rest).
        split; [now rewrite app_assoc|]. split; [exact Hd|].
        apply IH. now exists s', rest.
Qed.

Lemma denotes_ip_pattern p :
  denotes ip_pattern p <->
  exists d1 d2 d3 d4,
    p = d1 ++ ch "." :: d2 ++ ch "." :: d3 ++ ch "." :: d4
    /\ digit_run d1 /\ digit_run d2 /\ digit_run d3 /\ digit_run d4.
Proof.
  unfold ip_pattern, digit_run. simpl. split.
  - intros (d1 & s1 & -> & N1 & F1 & c1 & s2 & -> & C1 &
            d2 & s3 & -> & N2 & F2 & c2 & s4 & -> & C2 &
            d3 & s5 & -> & N3 & F3 & c3 & s6 & -> & C3 &
            d4 & s7 & -> & N4 & F4 & ->).
    apply N.eqb_eq in C1, C2, C3. subst c1 c2 c3.
    exists d1, d2, d3, d4. rewrite app_nil_r. now repeat split.
  - intros (d1 & d2 & d3 & d4 & -> & [N1 F1] & [N2 F2] & [N3 F3] & [N4 F4]).
    exists d1, (ch "." :: d2 ++ ch "." :: d3 ++ ch "." :: d4).
    repeat split; try assumption.
    exists (ch "."), (d2 ++ ch "." :: d3 ++ ch "." :: d4). repeat split.
    exists d2, (ch "." :: d3 ++ ch "." :: d4). repeat split; try assumption.
    exists (ch "."), (d3 ++ ch "." :: d4). repeat split.
    exists d3, (ch "." :: d4). repeat split; try assumption.
    exists (ch "."), d4. repeat split.
    exists d4, []. rewrite app_nil_r. now repeat split.
Qed.

Lemma re_match_ip_pattern url :
  re_match ip_pattern url = true <-> begins_with_dotted_quad url.
Proof.
  unfold re_match, begins_with_dotted_quad. rewrite match_here_spec. split.
  - intros (p & rest & -> & Hp).
    apply denotes_ip_pattern in Hp as (d1 & d2 & d3 & d4 & -> & H).
    exists d1, d2, d3, d4, rest. split; [|exact H].
    now rewrite <- !app_assoc, <- !app_comm_cons, <- !app_assoc,
      <- !app_comm_cons, <- !app_assoc.
  - intros (d1 & d2 & d3 & d4 & rest & -> & H).
    exists (d1 ++ ch "." :: d2 ++ ch "." :: d3 ++ ch "." :: d4), rest. split.
    + now rewrite <- !app_assoc, <- !app_comm_cons, <- !app_assoc,
        <- !app_comm_cons, <- !app_assoc.
    + apply denotes_ip_pattern. now exists d1, d2, d3, d4.
Qed.

(** ** Lowercase and substrings *)

Lemma startswith_app n s : startswith n (n ++ s) = true.
Proof.
  induction n as [|x n IH]; simpl; [reflexivity|].
  now rewrite N.eqb_refl, IH.
Qed.

Lemma contains_app n a b : contains n (a ++ n ++ b) = true.
Proof.
  induction a as [|x a IH]; simpl.
  - destruct (n ++ b) eqn:E; simpl; rewrite <- E, startswith_app; reflexivity.
  - rewrite IH. apply orb_true_r.
Qed.

Lemma lower_from_suffix before a s :
  exists x, lower_from before (a ++ s) = x ++ lower_from (before ++ a) s.
Proof.
  revert before. induction a as [|c a IH]; intros before; simpl.
  - exists []. now rewrite app_nil_r.
  - destruct (IH (before ++ [c])) as [x Hx]. rewrite Hx, <- !app_assoc.
    eexists. rewrite app_assoc. reflexivity.
Qed.

Lemma lower_from_ascii_app before w s :
  forallb is_ascii w = true ->
  lower_from before (w ++ s)
  = map ascii_lower w ++ lower_from (before ++ w) s.
Proof.
  revert before. induction w as [|c w IH]; intros before; simpl.
  - now rewrite app_nil_r.
  - intros H. apply andb_true_iff in H as [Hc Hw].
    rewrite Hc, IH by exact Hw. rewrite <- !app_assoc. reflexivity.
Qed.

(** A URL with an ASCII word [w] in it has the lowercase of [w] in its
    lowercase form, whatever the case of [w] and whatever surrounds it. *)
Lemma lower_keeps_ascii_word a w b :
  forallb is_ascii w = true ->
  contains (map ascii_lower w) (lower (a ++ w ++ b)) = true.
Proof.
  intros H. unfold lower.
  destruct (lower_from_suffix [] a (w ++ b)) as [x ->].
  rewrite lower_from_ascii_app by exact H. apply contains_app.
Qed.

(** Feature 12 is the length of the piece between the first "?" and the
    next one, or the end of the string. *)
Lemma feature_query_piece url :
  feature 12 url =
  Some (match after_first (ch "?") url with
        | Some q => len (hd [] (split (ch "?") q))
        | None => 0
        end).
Proof.
  rewrite feature_query. change (py "?") with [ch "?"].
  rewrite contains_char_after_first.
  destruct (after_first (ch "?") url) eqn:E; [|reflexivity].
  now rewrite (split_after_first _ _ E).
Qed.

(** With at most one "?" in the URL, feature 12 is the length of all that
    follows it. *)
Lemma feature_query_single url :
  count (ch "?") url <= 1 -> feature 12 url = Some (query_length_spec url).
Proof.
  intros H. rewrite feature_query_piece. unfold query_length_spec.
  destruct (after_first (ch "?") url) as [q|] eqn:E; [|reflexivity].
  apply after_first_count in E. pose proof (count_nonneg (ch "?") q).
  rewrite split_no_sep by lia. reflexivity.
Qed.

(** ** The claims on the extractor *)

(** C3, at the input where the code and the claim part: in
    "http://a.com/?b?c" the substring after the first "?" is "b?c", of
    length 3, and feature 12 is 1, the length of "b". *)
Theorem query_length_stops_at_second_question_mark :
  feature 12 (py "http://a.com/?b?c") = Some 1
  /\ query_length_spec (py "http://a.com/?b?c") = 3.
Proof. split; vm_compute; reflexivity. Qed.

(** C4, at its input: "http://192.168.1.1/login" does not start with the
    address, so feature 3 is 0; feature 13 is 1 for "login". *)
Theorem ip_flag_unset_behind_scheme :
  feature 3 (py "http://192.168.1.1/login") = Some 0
  /\ feature 13 (py "http://192.168.1.1/login") = Some 1.
Proof. split; vm_compute; reflexivity. Qed.

(** C8: feature 3 is 1 exactly when the string begins with digits, ".",
    digits, ".", digits, ".", digits, each run non-empty, and is 0
    otherwise.  A digit is what \d of [re] matches. *)
Theorem ip_flag_iff_dotted_quad_prefix (url : pystr) :
  (feature 3 url = Some 1 <-> begins_with_dotted_quad url)
  /\ (feature 3 url = Some 0 <-> ~ begins_with_dotted_quad url).
Proof.
  rewrite feature_ip, <- re_match_ip_pattern.
  destruct (re_match ip_pattern url); simpl; split; split;
    intros H; try reflexivity; try discriminate; try congruence.
Qed.

(** C10: the number of "/"-separated pieces is at least 1, and it is 1 for
    the empty string. *)
Theorem segment_count_at_least_one :
  (forall url : pystr, exists n, feature 5 url = Some n /\ 1 <= n)
  /\ feature 5 (py "") = Some 1.
Proof.
  split; [|reflexivity].
  intros url. exists (len (split (ch "/") url)).
  split; [apply feature_segments|apply split_length_pos].
Qed.

End ExtractorFacts.

(** ** The pipeline *)

Ltac run_step :=
  unfold bind, lift, invoke, ret, raise, try_except, now, append_history.

Ltac case_scrutinee :=
  match goal with
  | |- context [match ?x with _ => _ end] => destruct x eqn:?
  end.

Section PipelineFacts.

Context {U : Unicode} {K : Artifacts}.

Lemma extract_features_total (url : pystr) :
  exists v, extract_features_from_url (PyStr url) = inr v
            /\ length v = 14%nat.
Proof.
  simpl. rewrite extract_str_eq. eexists. split; reflexivity.
Qed.

(** The calls up to the override leave the history, the clock and the sink
    as they were. *)
Lemma decide_label_frame url w :
  history (snd (decide_label url w)) = history w
  /\ clock (snd (decide_label url w)) = clock w
  /\ sink_fault (snd (decide_label url w)) = sink_fault w.
Proof.
  unfold decide_label. run_step.
  repeat case_scrutinee; simpl; auto.
Qed.

Lemma decide_label_run url w features scaled encoded decoded :
  extract_str url = inr features ->
  scaler_transform features = inr scaled ->
  model_predict scaled = inr encoded ->
  label_encoder_inverse_transform encoded = inr decoded ->
  decide_label (PyStr url) w =
  (inr (if any_in override_tags (lower url) then PyStr (py "phishing")
        else decoded),
   after_calls w).
Proof.
  intros He Hs Hm Hd. unfold decide_label. run_step.
  simpl extract_features_from_url. rewrite He, Hs, Hm, Hd. reflexivity.
Qed.

(** What [predict] answers once a label is decided: the label, unless
    writing the row raises. *)
Lemma predict_run data url w features scaled encoded decoded :
  get data (py "url") = inr (PyStr url) ->
  url <> [] ->
  extract_str url = inr features ->
  scaler_transform features = inr scaled ->
  model_predict scaled = inr encoded ->
  label_encoder_inverse_transform encoded = inr decoded ->
  predict data w =
  let label := if any_in override_tags (lower url) then PyStr (py "phishing")
               else decoded in
  match log_detection (PyStr url) label (after_calls w) with
  | (inl e, w') => (inr (Err500 e), w')
  | (inr _, w') => (inr (Ok200 label), w')
  end.
Proof.
  intros Hg Hne He Hs Hm Hd. unfold predict, try_block.
  unfold bind at 1. unfold lift at 1. rewrite Hg.
  destruct url as [|c url]; [now elim Hne|].
  change (negb (truthy (PyStr (c :: url)))) with false.
  unfold try_except, bind. cbv beta iota.
  erewrite decide_label_run by eassumption.
  destruct (log_detection _ _ _) as [[e|[]] w']; reflexivity.
Qed.

Lemma override_needs_text url :
  any_in override_tags (lower url) = true -> url <> [].
Proof. intros H ->. discriminate H. Qed.

Lemma log_detection_dangerous url label lowered w :
  py_lower label = inr lowered ->
  member lowered dangerous_labels = true ->
  log_detection url label w
  = append_history [PyStr (clock w); url; label] w.
Proof.
  intros Hl Hm. unfold log_detection. run_step. now rewrite Hl, Hm.
Qed.

Lemma log_detection_quiet url label w :
  (forall lowered, py_lower label = inr lowered ->
                   member lowered dangerous_labels = false) ->
  history (snd (log_detection url label w)) = history w.
Proof.
  intros H. unfold log_detection. run_step.
  destruct (py_lower label) as [e|lowered]; [reflexivity|].
  now rewrite (H lowered eq_refl).
Qed.

(** ** The claims on the pipeline *)

(** C1, as the code has it: for a URL whose lowercase form contains one of
    "vulnweb", "acunetix", "testphp", "demo", whatever label the decoder
    returns, [predict] answers "phishing" and the row (timestamp, URL,
    "phishing") is appended to the history, when the collaborators return
    and the sink takes the row. *)
Theorem override_forces_phishing
    data url w features scaled encoded decoded :
  get data (py "url") = inr (PyStr url) ->
  any_in override_tags (lower url) = true ->
  extract_str url = inr features ->
  scaler_transform features = inr scaled ->
  model_predict scaled = inr encoded ->
  label_encoder_inverse_transform encoded = inr decoded ->
  sink_fault w [PyStr (clock w); PyStr url; PyStr (py "phishing")] = None ->
  fst (predict data w) = inr (Ok200 (PyStr (py "phishing")))
  /\ history (snd (predict data w))
     = history w ++ [[PyStr (clock w); PyStr url; PyStr (py "phishing")]].
Proof.
  intros Hg Ho He Hs Hm Hd Hsink.
  pose proof Ho as Hne. apply override_needs_text in Hne.
  erewrite predict_run by eassumption. cbv zeta. rewrite Ho.
  erewrite log_detection_dangerous by reflexivity.
  unfold append_history.
  change (sink_fault (after_calls w)) with (sink_fault w).
  change (clock (after_calls w)) with (clock w). rewrite Hsink.
  split; reflexivity.
Qed.

(** C2: on every string the extractor returns, without raising, a vector
    of exactly 14 numbers. *)
Theorem extract_returns_14_features (u : pystr) :
  exists v : list Z,
    extract_features_from_url (PyStr u) = inr v /\ length v = 14%nat.
Proof. apply extract_features_total. Qed.

(** C5, as the code has it: when the label is decided and is a dangerous
    one, and writing the row raises [e], [predict] answers the 500 error of
    [e] in place of the label. *)
Theorem sink_failure_fails_request
    data url w features scaled encoded decoded label lowered e :
  get data (py "url") = inr (PyStr url) ->
  url <> [] ->
  extract_str url = inr features ->
  scaler_transform features = inr scaled ->
  model_predict scaled = inr encoded ->
  label_encoder_inverse_transform encoded = inr decoded ->
  label = (if any_in override_tags (lower url) then PyStr (py "phishing")
           else decoded) ->
  py_lower label = inr lowered ->
  member lowered dangerous_labels = true ->
  sink_fault w [PyStr (clock w); PyStr url; label] = Some e ->
  fst (predict data w) = inr (Err500 e).
Proof.
  intros Hg Hne He Hs Hm Hd Hlabel Hl Hdanger Hsink.
  erewrite predict_run by eassumption. cbv zeta. rewrite <- Hlabel.
  erewrite log_detection_dangerous by eassumption.
  unfold append_history.
  change (sink_fault (after_calls w)) with (sink_fault w).
  change (clock (after_calls w)) with (clock w). now rewrite Hsink.
Qed.

(** C6: when the body has no "url", or has the empty string there,
    [predict] answers the 400 error and the world is as it was: no call in
    the trace, no row in the history. *)
Theorem missing_url_is_rejected data w :
  get data (py "url") = inr PyNone \/ get data (py "url") = inr (PyStr []) ->
  predict data w = (inr Err400, w).
Proof.
  intros [Hg | Hg]; unfold predict; run_step; now rewrite Hg.
Qed.

(** C7: when the label decided for the request, after the override, is not
    in lowercase one of "phishing", "malicious", "unsafe", and also when no
    label is decided, the history is as it was. *)
Theorem non_dangerous_label_leaves_history data w :
  (forall url label lowered,
      get data (py "url") = inr url ->
      truthy url = true ->
      fst (decide_label url w) = inr label ->
      py_lower label = inr lowered ->
      member lowered dangerous_labels = false) ->
  history (snd (predict data w)) = history w.
Proof.
  intros H. unfold predict. unfold bind at 1. unfold lift at 1.
  destruct (get data (py "url")) as [e|url] eqn:Hg; [reflexivity|].
  destruct (truthy url) eqn:Ht; [|reflexivity].
  change (negb true) with false. unfold try_except, try_block, bind.
  cbv beta iota.
  destruct (decide_label_frame url w) as [Hh _].
  destruct (decide_label url w) as [[e|label] w1] eqn:Hd; [exact Hh|].
  simpl in Hh.
  assert (Hq : history (snd (log_detection url label w1)) = history w1).
  { apply log_detection_quiet. intros lowered Hl.
    apply (H url label lowered);
      [reflexivity | exact Ht | now rewrite Hd | exact Hl]. }
  destruct (log_detection url label w1) as [[e|[]] w2];
    simpl in *; congruence.
Qed.

(** The program of the extractor returns the vector of
    [extract_features_from_url], the one the pipeline scales, and leaves
    the world as it finds it. *)
Lemma extract_call_value (url : pyobj) (w : World) :
  extract_call url w = (extract_features_from_url url, w).
Proof.
  destruct url; try reflexivity.
  unfold extract_call, extract_body, lbind, append, eval.
  unfold bind, lift, ret. cbn [extract_features_from_url fst snd app].
  unfold extract_str.
  destruct (Z.ltb 2 (len (split (ch "/") s)));
    destruct (contains (py "?") s);
    try destruct (index (split (ch "/") s) 2);
    try destruct (index (split (ch "?") s) 1);
    reflexivity.
Qed.

(** C9: a call of the extractor on a string returns the same 14 numbers in
    whatever world it runs, and leaves that world as it was; so two calls
    one after the other return the same vector. *)
Theorem extract_is_deterministic (url : pystr) (w1 w2 : World) :
  exists v : list Z,
    length v = 14%nat
    /\ extract_call (PyStr url) w1 = (inr v, w1)
    /\ extract_call (PyStr url) w2 = (inr v, w2)
    /\ extract_twice (PyStr url) w1 = (inr (v, v), w1).
Proof.
  destruct (extract_features_total url) as (v & Hv & Hn).
  exists v. unfold extract_twice, bind, ret.
  rewrite !extract_call_value, Hv. now repeat split.
Qed.

End PipelineFacts.

(** ** The claims at concrete requests *)

Lemma override_forces_phishing_witness :
  fst (predict (U:=ascii_only) (K:=benign_model)
         (body (py "http://VulnWeb.com/testphp/x")) fresh_world)
  = inr (Ok200 (PyStr (py "phishing")))
  /\ history (snd (predict (U:=ascii_only) (K:=benign_model)
                     (body (py "http://VulnWeb.com/testphp/x")) fresh_world))
     = [[PyStr (py "2024-05-01T12:00:00");
         PyStr (py "http://VulnWeb.com/testphp/x");
         PyStr (py "phishing")]].
Proof.
  eapply (@override_forces_phishing ascii_only benign_model
            (body (py "http://VulnWeb.com/testphp/x"))
            (py "http://VulnWeb.com/testphp/x") fresh_world);
    vm_compute; reflexivity.
Defined.

(** C1 as the claim states it fails here: the URL has the tags "vulnweb"
    and "testphp" and the collaborators return, but the history file cannot
    be opened: the answer is the 500 error, not "phishing", and no row is
    appended. *)
Lemma override_is_lost_with_the_sink :
  any_in override_tags
    (lower (U:=ascii_only) (py "http://vulnweb.com/testphp/x"))
  = true
  /\ fst (decide_label (U:=ascii_only) (K:=benign_model)
            (PyStr (py "http://vulnweb.com/testphp/x")) read_only_world)
     = inr (PyStr (py "phishing"))
  /\ fst (predict (U:=ascii_only) (K:=benign_model)
            (body (py "http://vulnweb.com/testphp/x")) read_only_world)
     = inr (Err500 (Raised (py "Permission denied")))
  /\ fst (predict (U:=ascii_only) (K:=benign_model)
            (body (py "http://vulnweb.com/testphp/x")) read_only_world)
     <> inr (Ok200 (PyStr (py "phishing")))
  /\ history (snd (predict (U:=ascii_only) (K:=benign_model)
                     (body (py "http://vulnweb.com/testphp/x"))
                     read_only_world))
     = history read_only_world.
Proof.
  repeat split; try (vm_compute; reflexivity).
  vm_compute. discriminate.
Qed.

(** C5 as the claim states it fails here: the collaborators return
    "malicious", the history file cannot be opened, and the answer is the
    500 error, not the label. *)
Lemma sink_failure_hides_label :
  fst (decide_label (U:=ascii_only) (K:=malicious_model)
         (PyStr (py "http://example.com/")) read_only_world)
  = inr (PyStr (py "malicious"))
  /\ sink_fault read_only_world
       [PyStr (clock read_only_world); PyStr (py "http://example.com/");
        PyStr (py "malicious")]
     = Some (Raised (py "Permission denied"))
  /\ fst (predict (U:=ascii_only) (K:=malicious_model)
            (body (py "http://example.com/")) read_only_world)
     = inr (Err500 (Raised (py "Permission denied")))
  /\ fst (predict (U:=ascii_only) (K:=malicious_model)
            (body (py "http://example.com/")) read_only_world)
     <> inr (Ok200 (PyStr (py "malicious"))).
Proof.
  repeat split; try (vm_compute; reflexivity).
  vm_compute. discriminate.
Qed.

Lemma sink_failure_fails_request_witness :
  fst (predict (U:=ascii_only) (K:=malicious_model)
         (body (py "http://example.com/")) read_only_world)
  = inr (Err500 (Raised (py "Permission denied"))).
Proof.
  eapply (@sink_failure_fails_request ascii_only malicious_model
            (body (py "http://example.com/")) (py "http://example.com/")
            read_only_world);
    try (vm_compute; reflexivity).
  discriminate.
Defined.

Lemma missing_url_is_rejected_witness :
  predict (U:=ascii_only) (K:=benign_model) (PyDict []) fresh_world
  = (inr Err400, fresh_world)
  /\ predict (U:=ascii_only) (K:=benign_model) (body (py "")) fresh_world
     = (inr Err400, fresh_world).
Proof.
  split.
  - apply (@missing_url_is_rejected ascii_only benign_model
             (PyDict []) fresh_world).
    left. reflexivity.
  - apply (@missing_url_is_rejected ascii_only benign_model
             (body (py "")) fresh_world).
    right. reflexivity.
Defined.

Lemma non_dangerous_label_leaves_history_witness :
  history (snd (predict (U:=ascii_only) (K:=benign_model)
                  (body (py "http://example.com/")) fresh_world))
  = history fresh_world.
Proof.
  apply (@non_dangerous_label_leaves_history ascii_only benign_model
           (body (py "http://example.com/")) fresh_world).
  intros url label lowered Hg _ Hd Hl.
  vm_compute in Hg. injection Hg as <-.
  vm_compute in Hd. injection Hd as <-.
  vm_compute in Hl. injection Hl as <-.
  reflexivity.
Defined.

(** * Further properties of the extractor *)

Lemma split_length sep s : len (split sep s) = count sep s + 1.
Proof.
  unfold len. induction s as [|x s IH]; [reflexivity|].
  cbn [split count]. destruct (N.eqb x sep).
  - cbn [length]. lia.
  - destruct (split sep s) eqn:E; [now apply split_not_nil in E|].
    cbn [length] in *. lia.
Qed.

Lemma split_app_sep sep a s :
  free_of sep a -> split sep (a ++ sep :: s) = a :: split sep s.
Proof.
  unfold free_of. induction a as [|x a IH]; simpl.
  - intros _. now rewrite N.eqb_refl.
  - pose proof (count_nonneg sep a). destruct (N.eqb x sep); [lia|].
    intros H0. rewrite IH by lia. reflexivity.
Qed.

(** The first piece of a split, when the piece ends at [rest]. *)
Lemma split_first_piece sep q rest :
  free_of sep q -> ends_piece sep rest ->
  exists pieces, split sep (q ++ rest) = q :: pieces.
Proof.
  intros Hq [-> | [r ->]].
  - rewrite app_nil_r, split_no_sep by exact Hq. now exists [].
  - rewrite split_app_sep by exact Hq. now eexists.
Qed.

Lemma count_le_len c s : count c s <= len s.
Proof.
  unfold len. induction s as [|x s IH]; simpl length; simpl count; [lia|].
  destruct (N.eqb x c); lia.
Qed.

Lemma count_if_bounds p s : 0 <= count_if p s <= len s.
Proof.
  unfold len. induction s as [|x s IH]; simpl length; simpl count_if; [lia|].
  destruct (p x); lia.
Qed.

Lemma split_piece_length sep s :
  forall piece, In piece (split sep s) -> len piece <= len s.
Proof.
  unfold len. induction s as [|x s IH]; simpl split.
  - intros piece [<- | []]. simpl. lia.
  - destruct (N.eqb x sep).
    + intros piece [<- | H]; simpl length; [lia|].
      specialize (IH _ H). lia.
    + destruct (split sep s) as [|p ps] eqn:E;
        [now apply split_not_nil in E|].
      intros piece [<- | H]; simpl length.
      * specialize (IH p (or_introl eq_refl)). lia.
      * specialize (IH piece (or_intror H)). lia.
Qed.

Lemma nth_piece_length sep s i : 0 <= len (nth i (split sep s) []) <= len s.
Proof.
  split; [unfold len; lia|].
  destruct (nth_in_or_default i (split sep s) []) as [H | ->].
  - now apply split_piece_length in H.
  - unfold len. simpl. lia.
Qed.

(** The sum of the six counts is the number of characters among the six:
    no character is counted twice. *)
Lemma sum_counts_special s :
  sum_counts special_chars s = count_if is_special s.
Proof.
  unfold sum_counts, special_chars. cbn [map fold_right].
  induction s as [|x s IH]; [reflexivity|].
  cbn [count count_if]. rewrite <- IH. clear IH.
  unfold is_special, special_chars. cbn [existsb].
  repeat match goal with
         | |- context [ch ?c] =>
             let v := eval vm_compute in (ch c) in change (ch c) with v
         end.
  repeat match goal with
         | |- context [N.eqb x ?c] =>
             destruct (N.eqb_spec x c) as [-> | _];
               [cbn [N.eqb Pos.eqb orb]; lia|]
         end.
  cbn [orb]. lia.
Qed.

Section ExtractorCoverage.

Context {U : Unicode}.

Lemma re_search_spec r s :
  re_search r s = true <->
  exists pre p rest, s = pre ++ p ++ rest /\ denotes r p.
Proof.
  induction s as [|x s IH]; simpl; rewrite orb_true_iff, match_here_spec.
  - split.
    + intros [(p & rest & E & Hp) | H]; [|discriminate].
      now exists [], p, rest.
    + intros (pre & p & rest & E & Hp). left.
      destruct pre; [|discriminate]. now exists p, rest.
  - rewrite IH. split.
    + intros [(p & rest & E & Hp) | (pre & p & rest & -> & Hp)].
      * now exists [], p, rest.
      * now exists (x :: pre), p, rest.
    + intros (pre & p & rest & E & Hp). destruct pre as [|y pre].
      * left. now exists p, rest.
      * right. simpl in E. injection E as -> ->. now exists pre, p, rest.
Qed.

Lemma any_in_intro tags tag s :
  In tag tags -> contains tag s = true -> any_in tags s = true.
Proof.
  intros Hin Hc. unfold any_in. apply existsb_exists. now exists tag.
Qed.

(** X1: the number of "/"-pieces is the number of "/" plus one. *)
Theorem segments_are_slashes_plus_one (url : pystr) :
  feature 5 url = Some (count (ch "/") url + 1).
Proof. rewrite feature_segments. now rewrite split_length. Qed.

(** X2: feature 10 is the number of dots less one, and 0 when the URL has
    no dot or one. *)
Theorem subdomains_are_dots_minus_one (url : pystr) :
  feature 10 url = Some (Z.max 0 (count (ch ".") url - 1)).
Proof.
  unfold feature. rewrite extract_str_eq. cbn [nth_error].
  rewrite split_length. pose proof (count_nonneg (ch ".") url).
  destruct (Z.ltb_spec 2 (count (ch ".") url + 1)); f_equal; lia.
Qed.

(** X3: feature 2 is the number of characters of the URL that are one of
    '@', '?', '=', '&', '-', '_'. *)
Theorem special_count_counts_each_character_once (url : pystr) :
  feature 2 url = Some (count_if is_special url).
Proof.
  unfold feature. rewrite extract_str_eq. cbn [nth_error].
  now rewrite sum_counts_special.
Qed.

(** X4: every feature lies between 0 and the length of the URL plus one,
    and features 3, 4, 6, 11 and 13 are 0 or 1. *)
Theorem features_are_bounded (url : pystr) :
  exists v : list Z,
    extract_str url = inr v
    /\ Forall (fun x => 0 <= x <= len url + 1) v
    /\ Forall (fun i => nth i v 0 = 0 \/ nth i v 0 = 1)
         [3; 4; 6; 11; 13]%nat.
Proof.
  eexists. split; [apply extract_str_eq|].
  pose proof (count_le_len (ch ".") url) as Hdot.
  pose proof (count_nonneg (ch ".") url) as Hdot0.
  pose proof (count_le_len (ch "/") url) as Hslash.
  pose proof (count_nonneg (ch "/") url) as Hslash0.
  pose proof (count_if_bounds is_special url) as Hsp.
  pose proof (count_if_bounds isdigit url) as Hdig.
  pose proof (count_if_bounds isupper url) as Hup.
  pose proof (nth_piece_length (ch "/") url 2) as Hdom.
  pose proof (nth_piece_length (ch "?") url 1) as Hq.
  assert (Hlen : 0 <= len url) by (unfold len; lia).
  rewrite sum_counts_special, !split_length. split.
  - repeat constructor;
      repeat match goal with
             | |- context [flag ?b] => destruct b; cbn [flag]
             | |- context [if ?b then _ else _] => destruct b eqn:?
             end; try lia.
    all: apply Z.ltb_lt in Heqb; lia.
  - repeat (apply Forall_cons || apply Forall_nil); cbn [nth];
      match goal with |- context [flag ?b] => destruct b end;
      cbn [flag]; auto.
Qed.

(** X5: in a URL a/b/host followed by nothing or by "/...", with no "/"
    in a, b and host (for "http://host/path": a = "http:", b empty),
    feature 9 is the length of host. *)
Theorem domain_length_is_third_piece (a b host rest : pystr) :
  free_of (ch "/") a -> free_of (ch "/") b -> free_of (ch "/") host ->
  ends_piece (ch "/") rest ->
  feature 9 (a ++ ch "/" :: b ++ ch "/" :: host ++ rest) = Some (len host).
Proof.
  intros Ha Hb Hh Hrest. unfold feature. rewrite extract_str_eq.
  cbn [nth_error]. rewrite !split_app_sep by assumption.
  destruct (split_first_piece Hh Hrest) as [pieces ->].
  cbn [nth]. unfold len at 1. cbn [length].
  destruct (Z.ltb_spec 2 (Z.of_nat (S (S (S (length pieces))))));
    [reflexivity|lia].
Qed.

(** X6: with fewer than two "/" in the URL, feature 9 is 0. *)
Theorem domain_length_zero_without_two_slashes (url : pystr) :
  count (ch "/") url < 2 -> feature 9 url = Some 0.
Proof.
  intros H. unfold feature. rewrite extract_str_eq. cbn [nth_error].
  rewrite split_length.
  destruct (Z.ltb_spec 2 (count (ch "/") url + 1)); [lia|reflexivity].
Qed.

(** X7: feature 11 is 1 exactly when a ":" of the URL is followed at once
    by a digit, and 0 otherwise. *)
Theorem port_flag_iff_colon_digit (url : pystr) :
  (feature 11 url = Some 1 <->
   exists pre d post,
     url = pre ++ ch ":" :: d :: post /\ is_decimal d = true)
  /\ (feature 11 url = Some 0 <->
      ~ exists pre d post,
          url = pre ++ ch ":" :: d :: post /\ is_decimal d = true).
Proof.
  assert (Hs : re_search port_pattern url = true <->
               exists pre d post,
                 url = pre ++ ch ":" :: d :: post /\ is_decimal d = true).
  { rewrite re_search_spec. unfold port_pattern. simpl. split.
    - intros (pre & p & rest & -> & c & s1 & -> & Hc & ds & s2 & -> &
              Hne & Hd & ->).
      apply N.eqb_eq in Hc. subst c.
      destruct ds as [|d ds]; [now elim Hne|].
      simpl in Hd. apply andb_true_iff in Hd as [Hd _].
      exists pre, d, (ds ++ rest). split; [|exact Hd].
      simpl. now rewrite app_nil_r.
    - intros (pre & d & post & -> & Hd).
      exists pre, [ch ":"; d], post. split; [reflexivity|].
      exists (ch ":"), [d]. repeat split.
      exists [d], []. repeat split; [discriminate|].
      simpl. now rewrite Hd. }
  unfold feature. rewrite extract_str_eq. cbn [nth_error]. rewrite <- Hs.
  destruct (re_search port_pattern url); simpl; split; split;
    intros H; try reflexivity; try discriminate; try congruence.
Qed.

(** X8: in a URL pre?q followed by nothing or by "?...", with no "?" in
    pre and q, feature 12 is the length of q. *)
Theorem query_length_is_second_piece (pre q rest : pystr) :
  free_of (ch "?") pre -> free_of (ch "?") q -> ends_piece (ch "?") rest ->
  feature 12 (pre ++ ch "?" :: q ++ rest) = Some (len q).
Proof.
  intros Hp Hq Hrest. rewrite feature_query.
  change (py "?") with ([ch "?"]).
  change (pre ++ ch "?" :: q ++ rest) with (pre ++ [ch "?"] ++ q ++ rest).
  rewrite contains_app. cbn [app].
  rewrite split_app_sep by assumption.
  destruct (split_first_piece Hq Hrest) as [pieces ->]. reflexivity.
Qed.

(** X9: the keyword flags do not look at case: an ASCII word of the URL
    whose lowercase is a suspicious word sets feature 13, one that spells
    "https" sets feature 4, and one that spells an encoding tag sets
    feature 6, in whatever case it is written. *)
Theorem keyword_flags_ignore_case (a w b : pystr) :
  forallb is_ascii w = true ->
  (In (map ascii_lower w) suspicious_words ->
   feature 13 (a ++ w ++ b) = Some 1)
  /\ (map ascii_lower w = py "https" -> feature 4 (a ++ w ++ b) = Some 1)
  /\ (In (map ascii_lower w) encoding_tags ->
      feature 6 (a ++ w ++ b) = Some 1).
Proof.
  intros Hw. pose proof (lower_keeps_ascii_word a w b Hw) as Hc.
  unfold feature. rewrite extract_str_eq. cbn [nth_error].
  repeat split.
  - intros Hin. now rewrite (any_in_intro _ _ _ Hin Hc).
  - intros <-. now rewrite Hc.
  - intros Hin. now rewrite (any_in_intro _ _ _ Hin Hc).
Qed.

End ExtractorCoverage.

(** * Further properties of the pipeline *)

Section PipelineCoverage.

Context {U : Unicode} {K : Artifacts}.

(** [predict] on a body whose "url" is true: the two halves of the [try]
    block, and any exception of theirs turned into the 500 answer. *)
Lemma predict_truthy data url w :
  get data (py "url") = inr url ->
  truthy url = true ->
  predict data w =
  match decide_label url w with
  | (inl e, w1) => (inr (Err500 e), w1)
  | (inr label, w1) =>
      match log_detection url label w1 with
      | (inl e, w2) => (inr (Err500 e), w2)
      | (inr _, w2) => (inr (Ok200 label), w2)
      end
  end.
Proof.
  intros Hg Ht. unfold predict. unfold bind at 1. unfold lift at 1.
  rewrite Hg, Ht. change (negb true) with false.
  unfold try_except, try_block, bind. cbv beta iota.
  destruct (decide_label url w) as [[e|label] w1]; [reflexivity|].
  destruct (log_detection url label w1) as [[e|[]] w2]; reflexivity.
Qed.

(** The calls of [decide_label] are a prefix of the four, and all four
    when it returns a label; it returns one only for a [str]. *)
Lemma decide_label_trace url w :
  exists n,
    trace (snd (decide_label url w)) = trace w ++ firstn n call_order
    /\ (forall label, fst (decide_label url w) = inr label ->
                      n = 4%nat /\ exists s, url = PyStr s).
Proof.
  unfold decide_label. run_step.
  destruct (extract_features_from_url url) as [e|features] eqn:He.
  { exists 1%nat. split; [reflexivity|discriminate]. }
  destruct (scaler_transform features) as [e|scaled].
  { exists 2%nat. simpl. rewrite <- app_assoc. split; [reflexivity|].
    discriminate. }
  destruct (model_predict scaled) as [e|encoded].
  { exists 3%nat. simpl. rewrite <- !app_assoc. split; [reflexivity|].
    discriminate. }
  destruct (label_encoder_inverse_transform encoded) as [e|decoded].
  { exists 4%nat. simpl. rewrite <- !app_assoc. split; [reflexivity|].
    discriminate. }
  exists 4%nat. destruct url; try discriminate He.
  simpl. rewrite <- !app_assoc. split; [reflexivity|].
  intros _ _. split; [reflexivity|]. now eexists.
Qed.

(** [log_detection] makes no call and does not touch the clock or the
    sink's faults; it writes at most the one row of a dangerous label. *)
Lemma log_detection_frame url label w :
  trace (snd (log_detection url label w)) = trace w
  /\ clock (snd (log_detection url label w)) = clock w
  /\ sink_fault (snd (log_detection url label w)) = sink_fault w
  /\ (history (snd (log_detection url label w)) = history w
      \/ exists lowered,
           py_lower label = inr lowered
           /\ member lowered dangerous_labels = true
           /\ history (snd (log_detection url label w))
              = history w ++ [[PyStr (clock w); url; label]]).
Proof.
  unfold log_detection. run_step.
  destruct (py_lower label) as [e|lowered] eqn:Hl; [simpl; auto|].
  destruct (member lowered dangerous_labels) eqn:Hm; [|simpl; auto].
  destruct (sink_fault w [PyStr (clock w); url; label]); simpl; auto.
  repeat split. right. now exists lowered.
Qed.

Lemma log_detection_returns url label w :
  fst (log_detection url label w) = inr tt -> exists s, label = PyStr s.
Proof.
  unfold log_detection. run_step.
  destruct label; simpl; try discriminate. intros _. now eexists.
Qed.

(** X10: a "url" that is false in Python (None, "", 0, 0.0, false, [],
    an empty object) gets the 400 answer, and the world is as it was. *)
Theorem falsy_url_is_rejected data url w :
  get data (py "url") = inr url ->
  truthy url = false ->
  predict data w = (inr Err400, w).
Proof.
  intros Hg Ht. unfold predict. run_step. now rewrite Hg, Ht.
Qed.

(** X11: a body that is not an object has no [get]: AttributeError leaves
    the handler, outside the [try] block, and the world is as it was. *)
Theorem body_without_get_raises data w :
  (forall fields, data <> PyDict fields) ->
  predict data w = (inl AttributeError, w).
Proof.
  intros H. unfold predict. run_step.
  destruct data; try reflexivity. now elim (H fields).
Qed.

(** X12: on a body that is an object the handler always answers: no
    exception leaves it. *)
Theorem object_body_is_always_answered fields w :
  exists r : response, fst (predict (PyDict fields) w) = inr r.
Proof.
  set (url := match lookup (py "url") fields with
              | Some v => v
              | None => PyNone
              end).
  destruct (truthy url) eqn:Ht.
  - rewrite (@predict_truthy (PyDict fields) url w eq_refl Ht).
    destruct (decide_label url w) as [[e|label] w1]; [now eexists|].
    destruct (log_detection url label w1) as [[e|[]] w2]; now eexists.
  - unfold predict. run_step. cbn [get]. fold url. rewrite Ht. now eexists.
Qed.

(** X13: a "url" that is true but not a string (a number, true, a list, an
    object) gets the 500 answer of a TypeError or an AttributeError raised
    in the extractor; no collaborator is called and nothing is written. *)
Theorem non_string_url_is_a_500 data url w :
  get data (py "url") = inr url ->
  truthy url = true ->
  (forall s, url <> PyStr s) ->
  exists e,
    (e = TypeError \/ e = AttributeError)
    /\ predict data w = (inr (Err500 e), log CallExtract w).
Proof.
  intros Hg Ht Hs. rewrite (predict_truthy _ _ Hg Ht).
  unfold decide_label. run_step.
  destruct url; try (now elim (Hs s)); simpl; eauto.
Qed.

(** X14: when the scaler, the model or the decoder raises [e], the answer
    is the 500 error of [e]; the collaborators after the one that raised
    are not called, and nothing is written. *)
Theorem collaborator_failure_is_a_500 data url w features e :
  get data (py "url") = inr (PyStr url) ->
  url <> [] ->
  extract_str url = inr features ->
  (scaler_transform features = inl e ->
   predict data w = (inr (Err500 e), log CallScaler (log CallExtract w)))
  /\ (forall scaled,
        scaler_transform features = inr scaled ->
        model_predict scaled = inl e ->
        predict data w
        = (inr (Err500 e),
           log CallModel (log CallScaler (log CallExtract w))))
  /\ (forall scaled encoded,
        scaler_transform features = inr scaled ->
        model_predict scaled = inr encoded ->
        label_encoder_inverse_transform encoded = inl e ->
        predict data w = (inr (Err500 e), after_calls w)).
Proof.
  intros Hg Hne He.
  assert (Ht : truthy (PyStr url) = true) by (now destruct url).
  rewrite (predict_truthy _ _ Hg Ht). unfold decide_label. run_step.
  cbn [extract_features_from_url]. rewrite He. repeat split.
  - now intros ->.
  - intros scaled -> Hm. now rewrite Hm.
  - intros scaled encoded -> -> Hd. now rewrite Hd.
Qed.

(** X15: a request leaves the rows of the history in place and adds at
    most one; the row added is (clock, url, label) for the "url" of the
    body and a label that is dangerous in lowercase.  The clock and the
    faults of the sink are not touched. *)
Theorem history_grows_by_at_most_one_row data w :
  (history (snd (predict data w)) = history w
   \/ exists url label lowered,
        get data (py "url") = inr url
        /\ py_lower label = inr lowered
        /\ member lowered dangerous_labels = true
        /\ history (snd (predict data w))
           = history w ++ [[PyStr (clock w); url; label]])
  /\ clock (snd (predict data w)) = clock w
  /\ sink_fault (snd (predict data w)) = sink_fault w.
Proof.
  destruct (get data (py "url")) as [e|url] eqn:Hg.
  { unfold predict. run_step. rewrite Hg. simpl. auto. }
  destruct (truthy url) eqn:Ht.
  2:{ unfold predict. run_step. rewrite Hg, Ht. simpl. auto. }
  rewrite (predict_truthy _ _ Hg Ht).
  destruct (decide_label_frame url w) as (Hh & Hc & Hf).
  destruct (decide_label url w) as [[e|label] w1]; simpl in Hh, Hc, Hf;
    [simpl; auto|].
  destruct (log_detection_frame url label w1) as (_ & Hc2 & Hf2 & Hh2).
  assert (Hrow : history (snd (log_detection url label w1)) = history w
                 \/ exists url0 label0 lowered,
                      (inr url : result pyobj) = inr url0
                      /\ py_lower label0 = inr lowered
                      /\ member lowered dangerous_labels = true
                      /\ history (snd (log_detection url label w1))
                         = history w ++ [[PyStr (clock w); url0; label0]]).
  { destruct Hh2 as [H | (lowered & Hl & Hm & H)]; [left; congruence|].
    right. exists url, label, lowered. rewrite H, Hh, Hc. auto. }
  destruct (log_detection url label w1) as [[e|[]] w2];
    simpl in *; repeat split; try congruence; exact Hrow.
Qed.

(** X16: the calls of a request are a prefix of extract, scaler, model,
    decoder, in that order: a collaborator is called once at most, and
    only after the ones before it have returned. *)
Theorem calls_follow_source_order data w :
  exists n,
    trace (snd (predict data w)) = trace w ++ firstn n call_order.
Proof.
  destruct (get data (py "url")) as [e|url] eqn:Hg.
  { exists 0%nat. unfold predict. run_step. rewrite Hg. simpl.
    now rewrite app_nil_r. }
  destruct (truthy url) eqn:Ht.
  2:{ exists 0%nat. unfold predict. run_step. rewrite Hg, Ht. simpl.
      now rewrite app_nil_r. }
  rewrite (predict_truthy _ _ Hg Ht).
  destruct (decide_label_trace url w) as (n & Hn & _). exists n.
  destruct (decide_label url w) as [[e|label] w1]; simpl in Hn;
    [exact Hn|].
  destruct (log_detection_frame url label w1) as (Htr & _).
  destruct (log_detection url label w1) as [[e|[]] w2];
    simpl in *; congruence.
Qed.

(** X17: a prediction is answered only after all four calls, and the
    label answered is a string. *)
Theorem prediction_needs_all_four_calls data w label :
  fst (predict data w) = inr (Ok200 label) ->
  trace (snd (predict data w)) = trace w ++ call_order
  /\ exists s, label = PyStr s.
Proof.
  destruct (get data (py "url")) as [e|url] eqn:Hg.
  { unfold predict. run_step. rewrite Hg. discriminate. }
  destruct (truthy url) eqn:Ht.
  2:{ unfold predict. run_step. rewrite Hg, Ht. discriminate. }
  rewrite (predict_truthy _ _ Hg Ht).
  destruct (decide_label_trace url w) as (n & Hn & Hfour).
  destruct (decide_label url w) as [[e|label1] w1]; [discriminate|].
  destruct (Hfour label1 eq_refl) as [-> _]. simpl in Hn.
  destruct (log_detection_frame url label1 w1) as (Htr & _).
  pose proof (log_detection_returns url label1 w1) as Hret.
  destruct (log_detection url label1 w1) as [[e|[]] w2];
    [discriminate|].
  simpl. intros [= <-]. split.
  - simpl in Htr. rewrite Htr. exact Hn.
  - now apply Hret.
Qed.

(** X18: for a URL without an override tag the label is answered as the
    decoder returned it, in its own case; when it is dangerous in
    lowercase and the sink takes the row, the row carries it in its own
    case too, and otherwise nothing is written. *)
Theorem label_is_answered_as_decoded
    data url w features scaled encoded label :
  get data (py "url") = inr (PyStr url) ->
  url <> [] ->
  any_in override_tags (lower url) = false ->
  extract_str url = inr features ->
  scaler_transform features = inr scaled ->
  model_predict scaled = inr encoded ->
  label_encoder_inverse_transform encoded = inr (PyStr label) ->
  sink_fault w [PyStr (clock w); PyStr url; PyStr label] = None ->
  fst (predict data w) = inr (Ok200 (PyStr label))
  /\ history (snd (predict data w))
     = if member (lower label) dangerous_labels
       then history w ++ [[PyStr (clock w); PyStr url; PyStr label]]
       else history w.
Proof.
  intros Hg Hne Ho He Hs Hm Hd Hsink.
  erewrite predict_run by eassumption. cbv zeta. rewrite Ho.
  unfold log_detection. run_step. cbn [py_lower].
  destruct (member (lower label) dangerous_labels); [|split; reflexivity].
  change (sink_fault (after_calls w)) with (sink_fault w).
  change (clock (after_calls w)) with (clock w). rewrite Hsink.
  split; reflexivity.
Qed.

(** X19: for a URL without an override tag, a label that is not a string
    (a decoder fitted on numbers) gets the 500 answer of AttributeError,
    and nothing is written. *)
Theorem non_string_label_is_a_500
    data url w features scaled encoded decoded :
  get data (py "url") = inr (PyStr url) ->
  url <> [] ->
  any_in override_tags (lower url) = false ->
  extract_str url = inr features ->
  scaler_transform features = inr scaled ->
  model_predict scaled = inr encoded ->
  label_encoder_inverse_transform encoded = inr decoded ->
  (forall s, decoded <> PyStr s) ->
  predict data w = (inr (Err500 AttributeError), after_calls w).
Proof.
  intros Hg Hne Ho He Hs Hm Hd Hns.
  erewrite predict_run by eassumption. cbv zeta. rewrite Ho.
  unfold log_detection. run_step.
  destruct decoded; try reflexivity. now elim (Hns s).
Qed.

(** X20: the override does not look at case: a URL with an ASCII word
    whose lowercase is one of the override tags is answered "phishing",
    whatever the decoder returns, when the sink takes the row. *)
Theorem override_ignores_case
    data a word b w features scaled encoded decoded :
  forallb is_ascii word = true ->
  In (map ascii_lower word) override_tags ->
  get data (py "url") = inr (PyStr (a ++ word ++ b)) ->
  extract_str (a ++ word ++ b) = inr features ->
  scaler_transform features = inr scaled ->
  model_predict scaled = inr encoded ->
  label_encoder_inverse_transform encoded = inr decoded ->
  sink_fault w [PyStr (clock w); PyStr (a ++ word ++ b);
                PyStr (py "phishing")] = None ->
  fst (predict data w) = inr (Ok200 (PyStr (py "phishing"))).
Proof.
  intros Hw Hin Hg He Hs Hm Hd Hsink.
  pose proof (any_in_intro _ _ _ Hin (lower_keeps_ascii_word a word b Hw))
    as Ho.
  pose proof Ho as Hne. apply override_needs_text in Hne.
  erewrite predict_run by eassumption. cbv zeta. rewrite Ho.
  erewrite log_detection_dangerous by reflexivity.
  unfold append_history.
  change (sink_fault (after_calls w)) with (sink_fault w).
  change (clock (after_calls w)) with (clock w). now rewrite Hsink.
Qed.

End PipelineCoverage.

(** ** The further properties at concrete requests *)

Lemma domain_length_is_third_piece_witness :
  feature (U:=ascii_only) 9 (py "http://example.com/path") = Some 11.
Proof.
  apply (@domain_length_is_third_piece ascii_only
           (py "http:") [] (py "example.com") (py "/path"));
    try reflexivity.
  right. eexists. reflexivity.
Defined.

Lemma domain_length_zero_without_two_slashes_witness :
  feature (U:=ascii_only) 9 (py "example.com/a") = Some 0.
Proof.
  apply (@domain_length_zero_without_two_slashes ascii_only
           (py "example.com/a")).
  reflexivity.
Defined.

Lemma query_length_is_second_piece_witness :
  feature (U:=ascii_only) 12 (py "https://example.com/a/b?x=1") = Some 3.
Proof.
  apply (@query_length_is_second_piece ascii_only
           (py "https://example.com/a/b") (py "x=1") []);
    try reflexivity.
  left. reflexivity.
Defined.

Lemma keyword_flags_ignore_case_witness :
  feature (U:=ascii_only) 13 (py "http://x/LogIn") = Some 1.
Proof.
  apply (@keyword_flags_ignore_case ascii_only
           (py "http://x/") (py "LogIn") []).
  - reflexivity.
  - left. reflexivity.
Defined.

Lemma falsy_url_is_rejected_witness :
  predict (U:=ascii_only) (K:=benign_model)
    (PyDict [(py "url", PyInt 0)]) fresh_world
  = (inr Err400, fresh_world).
Proof.
  apply (@falsy_url_is_rejected ascii_only benign_model
           (PyDict [(py "url", PyInt 0)]) (PyInt 0) fresh_world);
    reflexivity.
Defined.

Lemma body_without_get_raises_witness :
  predict (U:=ascii_only) (K:=benign_model) (PyList []) fresh_world
  = (inl AttributeError, fresh_world).
Proof.
  apply (@body_without_get_raises ascii_only benign_model
           (PyList []) fresh_world).
  intros fields. discriminate.
Defined.

Lemma non_string_url_is_a_500_witness :
  exists e,
    (e = TypeError \/ e = AttributeError)
    /\ predict (U:=ascii_only) (K:=benign_model)
         (PyDict [(py "url", PyInt 5)]) fresh_world
       = (inr (Err500 e), log CallExtract fresh_world).
Proof.
  apply (@non_string_url_is_a_500 ascii_only benign_model
           (PyDict [(py "url", PyInt 5)]) (PyInt 5) fresh_world);
    try reflexivity.
  intros s. discriminate.
Defined.

Lemma collaborator_failure_is_a_500_witness :
  predict (U:=ascii_only) (K:=unfitted_scaler)
    (body (py "http://example.com/")) fresh_world
  = (inr (Err500 (Raised (py "scaler is not fitted"))),
     log CallScaler (log CallExtract fresh_world)).
Proof.
  eapply (@collaborator_failure_is_a_500 ascii_only unfitted_scaler
            (body (py "http://example.com/")) (py "http://example.com/")
            fresh_world);
    try (vm_compute; reflexivity).
  discriminate.
Defined.

Lemma prediction_needs_all_four_calls_witness :
  trace (snd (predict (U:=ascii_only) (K:=benign_model)
                (body (py "http://example.com/")) fresh_world))
  = trace fresh_world ++ call_order
  /\ exists s, PyStr (py "benign") = PyStr s.
Proof.
  apply (@prediction_needs_all_four_calls ascii_only benign_model
           (body (py "http://example.com/")) fresh_world
           (PyStr (py "benign"))).
  vm_compute. reflexivity.
Defined.

Lemma label_is_answered_as_decoded_witness :
  fst (predict (U:=ascii_only)
         (K:=constant_artifacts (PyStr (py "Malicious")))
         (body (py "http://example.com/")) fresh_world)
  = inr (Ok200 (PyStr (py "Malicious")))
  /\ history (snd (predict (U:=ascii_only)
                     (K:=constant_artifacts (PyStr (py "Malicious")))
                     (body (py "http://example.com/")) fresh_world))
     = [[PyStr (py "2024-05-01T12:00:00");
         PyStr (py "http://example.com/");
         PyStr (py "Malicious")]].
Proof.
  eapply (@label_is_answered_as_decoded ascii_only
            (constant_artifacts (PyStr (py "Malicious")))
            (body (py "http://example.com/")) (py "http://example.com/")
            fresh_world);
    try (vm_compute; reflexivity).
  discriminate.
Defined.

Lemma non_string_label_is_a_500_witness :
  predict (U:=ascii_only) (K:=numeric_model)
    (body (py "http://example.com/")) fresh_world
  = (inr (Err500 AttributeError), after_calls fresh_world).
Proof.
  eapply (@non_string_label_is_a_500 ascii_only numeric_model
            (body (py "http://example.com/")) (py "http://example.com/")
            fresh_world);
    try (vm_compute; reflexivity).
  - discriminate.
  - intros s. discriminate.
Defined.

Lemma override_ignores_case_witness :
  fst (predict (U:=ascii_only) (K:=benign_model)
         (body (py "http://TestPHP.example/")) fresh_world)
  = inr (Ok200 (PyStr (py "phishing"))).
Proof.
  eapply (@override_ignores_case ascii_only benign_model
            (body (py "http://TestPHP.example/"))
            (py "http://") (py "TestPHP") (py ".example/") fresh_world);
    try (vm_compute; reflexivity).
  right. right. left. reflexivity.
Defined.
